(** * pyxem: the detector index and the build manifest

    A shallow embedding of the two files of the excerpt:

    - [src/pyxem/detectors/__init__.py], the index of the package
      [pyxem.detectors]: a docstring, three [from . import] statements and
      the assignment of [__all__];
    - [src/setup.py], the build manifest: it executes
      [pyxem/release_info.py], reads [README.rst] and calls [setup].

    Module namespaces are Python dictionaries keyed by strings, modelled as
    [gmap string _].  Code that raises returns an exception value. *)

From Stdlib Require Import Ascii String List ZArith QArith Lia Bool.
From stdpp Require Import base option gmap strings list fin_maps.

Local Open Scope string_scope.
Local Open Scope list_scope.

(** ** Python exceptions and results *)

Module Py.

Inductive exn : Type :=
| FileNotFoundError (path : string)
| NameError (name : string)
| AttributeError (owner name : string)
| ModuleNotFoundError (name : string)
| ImportError (module name : string)
| NotInSysModules (name : string)
| TypeError (what : string).

Inductive result (A : Type) : Type :=
| Ok (a : A)
| Err (e : exn).

Arguments Ok {A} a.
Arguments Err {A} e.

Definition bind {A B : Type} (r : result A) (k : A -> result B) : result B :=
  match r with
  | Ok a => k a
  | Err e => Err e
  end.

Definition is_ok {A : Type} (r : result A) : bool :=
  match r with Ok _ => true | Err _ => false end.

#[global] Instance result_ret : MRet result := λ A a, Ok a.
#[global] Instance result_bind : MBind result := λ A B k r, bind r k.

End Py.

(** ** The package index [pyxem/detectors/__init__.py] *)

Module Detectors.
Import Py.

(** The objects a module namespace of the index can hold. *)
Inductive value : Type :=
| VNone
| VStr (s : string)
| VList (l : list string)
| VModule (qualname : string)
| VClass (module name : string)
| VOpaque (tag : string).

(** The dotted name of the package the file is the index of. *)
Definition package : string := "pyxem.detectors".

(** The statements of the file, in source order. *)
Inductive stmt : Type :=
| Docstring (text : string)
| FromImport (submodule name : string)
| Assign (target : string) (v : value).

Definition body : list stmt :=
  [ Docstring "Detectors defined fro pyFAI integration";
    FromImport "generic_flat_detector" "GenericFlatDetector";
    FromImport "medipix_256x256" "Medipix256x256Detector";
    FromImport "medipix_515x515" "Medipix515x515Detector";
    Assign "__all__"
      (VList [ "GenericFlatDetector";
               "Medipix256x256Detector";
               "Medipix515x515Detector" ]) ].

(** The namespace the import system gives a package before its body runs. *)
Definition fresh_module : gmap string value :=
  <["__builtins__" := VOpaque "builtins"]>
  (<["__cached__" := VOpaque "cached"]>
  (<["__file__" := VOpaque "file"]>
  (<["__path__" := VOpaque "path"]>
  (<["__spec__" := VOpaque "spec"]>
  (<["__loader__" := VOpaque "loader"]>
  (<["__package__" := VStr package]>
  (<["__doc__" := VNone]>
  (<["__name__" := VStr package]> ∅)))))))).

Definition qualify (submodule : string) : string :=
  package +:+ "." +:+ submodule.

Section Index.

(** The submodules on the import path are outside the excerpt: [tree] maps
    the dotted name of each module that can be loaded to the namespace its
    execution produces. *)
Variable tree : gmap string (gmap string value).

(** One statement of the body, run in the namespace [ns].  A relative
    import loads the submodule, binds it as an attribute of the package,
    then binds the imported name. *)
Definition exec_stmt (s : stmt) (ns : gmap string value)
  : gmap string value * option exn :=
  match s with
  | Docstring text => (<["__doc__" := VStr text]> ns, None)
  | FromImport submodule name =>
      let q := qualify submodule in
      match tree !! q with
      | None => (ns, Some (ModuleNotFoundError q))
      | Some exported =>
          let ns1 := <[submodule := VModule q]> ns in
          match exported !! name with
          | None => (ns1, Some (ImportError q name))
          | Some v => (<[name := v]> ns1, None)
          end
      end
  | Assign target v => (<[target := v]> ns, None)
  end.

(** Statements run in order; the first exception stops the body. *)
Fixpoint exec_body (ss : list stmt) (ns : gmap string value)
  : gmap string value * option exn :=
  match ss with
  | [] => (ns, None)
  | s :: rest =>
      match exec_stmt s ns with
      | (ns', None) => exec_body rest ns'
      | (ns', Some e) => (ns', Some e)
      end
  end.

(** The interpreter state the index lives in: the entry of the package in
    [sys.modules], absent until the first successful import. *)
Definition state : Type := option (gmap string value).

(** [import pyxem.detectors]: a cached module is returned as it is;
    otherwise the body runs in a fresh namespace, and the module is cached
    only when the body finishes. *)
Definition import_package (st : state) : result (gmap string value) * state :=
  match st with
  | Some ns => (Ok ns, st)
  | None =>
      match exec_body body fresh_module with
      | (ns, None) => (Ok ns, Some ns)
      | (_, Some e) => (Err e, None)
      end
  end.

(** [getattr(module, name)], as far as the index decides it: the value the
    dictionary of the module holds under [name], and [AttributeError] when
    it holds none.  The index defines no [__getattr__] hook.  A name that
    starts with an underscore can also be answered by the type of module
    objects ([__class__], [__dict__], [__repr__], ...), which belongs to
    the interpreter and not to the index: what is proved below about
    lookups that fail, or about the kind of object a lookup returns, is
    stated for names that do not start with an underscore, none of which
    the type of module objects defines. *)
Definition getattr (ns : gmap string value) (name : string) : result value :=
  match ns !! name with
  | Some v => Ok v
  | None => Err (AttributeError package name)
  end.

(** Looking a name up in the index: import the package, read the attribute. *)
Definition get (name : string) (st : state) : result value * state :=
  match import_package st with
  | (Ok ns, st') => (getattr ns name, st')
  | (Err e, st') => (Err e, st')
  end.

(** The listing of the index: the value of [__all__]. *)
Definition listing (st : state) : result (list string) * state :=
  match get "__all__" st with
  | (Ok (VList l), st') => (Ok l, st')
  | (Ok _, st') => (Err (TypeError "__all__"), st')
  | (Err e, st') => (Err e, st')
  end.

Definition is_public (name : string) : bool :=
  match name with
  | String c _ => negb (Ascii.eqb c "_"%char)
  | EmptyString => true
  end.

(** [from pyxem.detectors import *] reads the names listed in [__all__]
    one at a time, in order, and binds each in the importing namespace as
    soon as it is read: [made] holds the bindings made so far.  A listed
    name the module does not have raises, and what was bound before it
    stays bound. *)
Fixpoint star_bind (names : list string) (ns made : gmap string value)
  : gmap string value * option exn :=
  match names with
  | [] => (made, None)
  | n :: rest =>
      match getattr ns n with
      | Err e => (made, Some e)
      | Ok v => star_bind rest ns (<[n := v]> made)
      end
  end.

(** The items of a string taken as a sequence: its characters, each a
    string of length one. *)
Fixpoint characters (s : string) : list string :=
  match s with
  | EmptyString => []
  | String c rest => String c EmptyString :: characters rest
  end.

(** The bindings a star import makes, and the exception it stops at, if
    any.  [__all__] is read as a sequence of names (a string is the
    sequence of its characters); without [__all__] every name of the
    module that does not start with an underscore is bound. *)
Definition import_star (ns : gmap string value)
  : gmap string value * option exn :=
  match ns !! "__all__" with
  | Some (VList names) => star_bind names ns ∅
  | Some (VStr s) => star_bind (characters s) ns ∅
  | Some _ => (∅, Some (TypeError "__all__"))
  | None => (filter (λ kv, is_public kv.1 = true) ns, None)
  end.


Definition init_module_attrs (ns : gmap string value) : gmap string value :=
  <["__cached__" := VOpaque "cached"]>
  (<["__file__" := VOpaque "file"]>
  (<["__path__" := VOpaque "path"]>
  (<["__spec__" := VOpaque "spec"]>
  (<["__package__" := VStr package]>
  (<["__loader__" := VOpaque "loader"]>
  (<["__name__" := VStr package]> ns)))))).

(** Code executed in a namespace that lacks [__builtins__] gets it bound. *)
Definition with_builtins (ns : gmap string value) : gmap string value :=
  match ns !! "__builtins__" with
  | Some _ => ns
  | None => <["__builtins__" := VOpaque "builtins"]> ns
  end.

(** One statement of the body when the body runs again in a module that
    has been imported: the submodules were loaded by the first import and
    are in [sys.modules], so a relative import finds its submodule there
    and binds the imported name only.  The attribute of the package that
    names a submodule is bound when the submodule is loaded, and not
    again. *)
Definition rerun_stmt (s : stmt) (ns : gmap string value)
  : gmap string value * option exn :=
  match s with
  | FromImport submodule name =>
      let q := qualify submodule in
      match tree !! q with
      | None => (ns, Some (ModuleNotFoundError q))
      | Some exported =>
          match exported !! name with
          | None => (ns, Some (ImportError q name))
          | Some v => (<[name := v]> ns, None)
          end
      end
  | _ => exec_stmt s ns
  end.

Fixpoint rerun_body (ss : list stmt) (ns : gmap string value)
  : gmap string value * option exn :=
  match ss with
  | [] => (ns, None)
  | s :: rest =>
      match rerun_stmt s ns with
      | (ns', None) => rerun_body rest ns'
      | (ns', Some e) => (ns', Some e)
      end
  end.

(** [importlib.reload(pyxem.detectors)] of a module that [sys.modules]
    holds under the name its spec gives, whose source is found again and
    whose [__builtins__], when bound, is the interpreter's: the import
    system sets the attributes of the spec anew, then the body runs again
    in the namespace the module already has; what an interrupted run has
    bound stays bound.  (When the module is not registered under the name
    its spec gives, or its source is no longer found, the call raises
    before the body runs; the import system decides that, not the
    index.) *)
Definition reload (st : state) : result (gmap string value) * state :=
  match st with
  | None => (Err (NotInSysModules package), None)
  | Some ns =>
      match rerun_body body (with_builtins (init_module_attrs ns)) with
      | (ns', None) => (Ok ns', Some ns')
      | (ns', Some e) => (Err e, Some ns')
      end
  end.

(** The relative imports of a body, as pairs of submodule and name. *)
Fixpoint imports_of (ss : list stmt) : list (string * string) :=
  match ss with
  | [] => []
  | FromImport submodule name :: rest => (submodule, name) :: imports_of rest
  | _ :: rest => imports_of rest
  end.



(** The submodule [submodule] can be loaded and defines the class [name]. *)
Definition defines_class (sn : string * string) : Prop :=
  ∃ exported, tree !! qualify sn.1 = Some exported
    ∧ exported !! sn.2 = Some (VClass (qualify sn.1) sn.2).

(** Every submodule the index imports from defines the class imported. *)
Definition provides : Prop := Forall defines_class (imports_of body).

(** The index has been imported: its module is in [sys.modules], with the
    namespace a finished run of the body leaves. *)
Definition populated (st : state) : Prop :=
  ∃ ns, st = Some ns ∧ exec_body body fresh_module = (ns, None).

End Index.

(** The names the specification gives the three detectors. *)
Definition spec_names : list string :=
  [ "generic_flat"; "medipix_256x256"; "medipix_515x515" ].

(** The names the index exports: the literal assigned to [__all__]. *)
Definition exported_names : list string :=
  [ "GenericFlatDetector"; "Medipix256x256Detector"; "Medipix515x515Detector" ].

(** Every name bound in the namespace of the imported index. *)
Definition bound_names : list string :=
  [ "__name__"; "__doc__"; "__package__"; "__loader__"; "__spec__";
    "__path__"; "__file__"; "__cached__"; "__builtins__";
    "generic_flat_detector"; "GenericFlatDetector";
    "medipix_256x256"; "Medipix256x256Detector";
    "medipix_515x515"; "Medipix515x515Detector";
    "__all__" ].

(** A source tree in which each of the three submodules defines its class
    and nothing else. *)
Definition sample_tree : gmap string (gmap string value) :=
  <["pyxem.detectors.generic_flat_detector" :=
      {[ "GenericFlatDetector" :=
           VClass "pyxem.detectors.generic_flat_detector" "GenericFlatDetector" ]}]>
  (<["pyxem.detectors.medipix_256x256" :=
      {[ "Medipix256x256Detector" :=
           VClass "pyxem.detectors.medipix_256x256" "Medipix256x256Detector" ]}]>
  (<["pyxem.detectors.medipix_515x515" :=
      {[ "Medipix515x515Detector" :=
           VClass "pyxem.detectors.medipix_515x515" "Medipix515x515Detector" ]}]> ∅)).

(** A source tree in which the second submodule is missing. *)
Definition broken_tree : gmap string (gmap string value) :=
  delete "pyxem.detectors.medipix_256x256" sample_tree.

(** The namespace a finished run of the body leaves when every submodule
    defines its class. *)
Definition index_namespace : gmap string value :=
  (exec_body sample_tree body fresh_module).1.

(** The states a caller can find the index in: not imported yet, or
    imported. *)
Definition ready (tree : gmap string (gmap string value)) (st : state) : Prop :=
  st = None ∨ populated tree st.

(** The submodule of a relative import can be loaded and has the imported
    name. *)
Definition importable (tree : gmap string (gmap string value))
  (sn : string * string) : Prop :=
  ∃ exported, tree !! qualify sn.1 = Some exported
    ∧ is_Some (exported !! sn.2).

(** The exception of a relative import that cannot be done: the submodule
    is missing, or it lacks the name. *)
Definition import_error (tree : gmap string (gmap string value))
  (sn : string * string) : exn :=
  match tree !! qualify sn.1 with
  | None => ModuleNotFoundError (qualify sn.1)
  | Some _ => ImportError (qualify sn.1) sn.2
  end.

End Detectors.

(** ** The build manifest [setup.py] *)

Module Setup.
Import Py.

(** The objects the globals of the script can hold. *)
Inductive value : Type :=
| VNone
| VStr (s : string)
| VDict (d : gmap string (list string))
| VExec
| VOpen
| VBuiltin (name : string)
| VSetup
| VFindPackages.

(** What the script runs in: the files of the working directory, what
    executing the text of [pyxem/release_info.py] binds (that file is
    outside the excerpt; it assigns version metadata, strings, or raises),
    the packages [find_packages()] finds, and whether [setuptools] can be
    imported. *)
Record env : Type := {
  files : gmap string string;
  exec_text : string → result (list (string * string));
  found_packages : list string;
  has_setuptools : bool
}.

(** The names the interpreter adds to [builtins] at start-up through
    [site], and the built-in functions other than [exec] and [open]. *)
Definition site_builtins : list string :=
  [ "copyright"; "credits"; "license"; "exit"; "quit"; "help" ].

Definition builtin_functions : list string :=
  [ "abs"; "all"; "any"; "ascii"; "bin"; "bool"; "breakpoint"; "bytearray";
    "bytes"; "callable"; "chr"; "classmethod"; "compile"; "complex";
    "delattr"; "dict"; "dir"; "divmod"; "enumerate"; "eval"; "filter";
    "float"; "format"; "frozenset"; "getattr"; "globals"; "hasattr"; "hash";
    "hex"; "id"; "input"; "int"; "isinstance"; "issubclass"; "iter"; "len";
    "list"; "locals"; "map"; "max"; "memoryview"; "min"; "next"; "object";
    "oct"; "ord"; "pow"; "print"; "property"; "range"; "repr"; "reversed";
    "round"; "set"; "setattr"; "slice"; "sorted"; "staticmethod"; "str";
    "sum"; "super"; "tuple"; "type"; "vars"; "zip"; "__import__" ].

Definition builtins : gmap string value :=
  <["exec" := VExec]>
  (<["open" := VOpen]>
  (list_to_map ((λ n, (n, VBuiltin n)) <$> (site_builtins ++ builtin_functions)))).

(** The globals of a script started as [__main__]. *)
Definition main_globals : gmap string value :=
  <["__name__" := VStr "__main__"]>
  (<["__file__" := VStr "setup.py"]>
  (<["__doc__" := VNone]>
  (<["__package__" := VNone]>
  (<["__spec__" := VNone]>
  (<["__builtins__" := VBuiltin "builtins"]> ∅))))).

(** Reading a name: the globals first, then the builtins. *)
Definition lookup_name (g : gmap string value) (n : string) : result value :=
  match g !! n with
  | Some v => Ok v
  | None =>
      match builtins !! n with
      | Some v => Ok v
      | None => Err (NameError n)
      end
  end.

(** The dictionary literal bound to [extra_feature_requirements]. *)
Definition extra_feature_requirements : gmap string (list string) :=
  <["doc" :=
      [ "furo";
        "nbsphinx                   >= 0.7";
        "sphinx                     >= 3.0.2, <= 4.0.2";
        "sphinx-copybutton          >= 0.2.5";
        "sphinx-autodoc-typehints   >= 1.10.3";
        "sphinx-gallery             >= 0.6";
        "sphinxcontrib-bibtex       >= 1.0" ]]>
  (<["tests" :=
      [ "pytest     >= 5.0";
        "pytest-cov >= 2.8.1";
        "coveralls  >= 1.10";
        "coverage   >= 5.0" ]]>
  (<["dev" := [ "black"; "pre-commit >=1.16" ]]>
  (<["gpu" := [ "cupy >= 9.0.0" ]]> ∅))).

(** The keyword arguments of the call of [setup]. *)
Record setup_call : Type := {
  name : value;
  version : value;
  description : string;
  author : value;
  author_email : value;
  license : value;
  url : string;
  long_description : string;
  keywords : list string;
  classifiers : list string;
  packages : list string;
  extras_require : value;
  install_requires : list string;
  python_requires : string;
  package_data : gmap string (list string);
  entry_points : gmap string (list string)
}.

Section Script.

Variable e : env.

(** [from setuptools import setup, find_packages] *)
Definition import_setuptools (g : gmap string value)
  : result (gmap string value) :=
  if has_setuptools e
  then Ok (<["find_packages" := VFindPackages]> (<["setup" := VSetup]> g))
  else Err (ModuleNotFoundError "setuptools").

Definition not_callable (v : value) : exn :=
  match v with
  | VNone => TypeError "'NoneType' object is not callable"
  | VStr _ => TypeError "'str' object is not callable"
  | VDict _ => TypeError "'dict' object is not callable"
  | _ => TypeError "wrong arguments"
  end.

(** [f(path).read()] *)
Definition call_open (f : value) (path : string) : result string :=
  match f with
  | VOpen =>
      match files e !! path with
      | Some text => Ok text
      | None => Err (FileNotFoundError path)
      end
  | v => Err (not_callable v)
  end.

(** [f(text)]: the names the executed text binds. *)
Definition call_exec (f : value) (text : string)
  : result (list (string * string)) :=
  match f with
  | VExec => exec_text e text
  | v => Err (not_callable v)
  end.

(** [f()] *)
Definition call_find_packages (f : value) : result (list string) :=
  match f with
  | VFindPackages => Ok (found_packages e)
  | v => Err (not_callable v)
  end.

(** The call of [f] with keyword arguments: the script ends by handing
    them to [setup]. *)
Definition call_setup (f : value) (kwargs : setup_call) : result setup_call :=
  match f with
  | VSetup => Ok kwargs
  | v => Err (not_callable v)
  end.

(** The assignments of an executed text land in the globals, in order. *)
Definition bind_all (bound : list (string * string)) (g : gmap string value)
  : gmap string value :=
  foldl (λ g kv, <[kv.1 := VStr kv.2]> g) g bound.

(** The script, statement by statement; in the call of [setup] the callee
    is evaluated first, then the keyword arguments from left to right. *)
Definition run_manifest : result setup_call :=
  g0 ← import_setuptools main_globals;
  exec_f ← lookup_name g0 "exec";
  open_f ← lookup_name g0 "open";
  text ← call_open open_f "pyxem/release_info.py";
  bound ← call_exec exec_f text;
  let g1 := bind_all bound g0 in
  let g2 := <["extra_feature_requirements" := VDict extra_feature_requirements]> g1 in
  setup_f ← lookup_name g2 "setup";
  a_name ← lookup_name g2 "name";
  a_version ← lookup_name g2 "version";
  a_author ← lookup_name g2 "author";
  a_email ← lookup_name g2 "email";
  a_license ← lookup_name g2 "license";
  open_f' ← lookup_name g2 "open";
  readme ← call_open open_f' "README.rst";
  find_f ← lookup_name g2 "find_packages";
  found ← call_find_packages find_f;
  extras ← lookup_name g2 "extra_feature_requirements";
  call_setup setup_f
    {| name := a_name;
       version := a_version;
       description := "multi-dimensional diffraction microscopy";
       author := a_author;
       author_email := a_email;
       license := a_license;
       url := "https://github.com/pyxem/pyxem";
       long_description := readme;
       keywords :=
         [ "data analysis";
           "diffraction";
           "microscopy";
           "electron diffraction";
           "electron microscopy" ];
       classifiers :=
         [ "Programming Language :: Python :: 3";
           "Programming Language :: Python :: 3.7";
           "Programming Language :: Python :: 3.8";
           "Programming Language :: Python :: 3.9";
           "Development Status :: 4 - Beta";
           "Intended Audience :: Science/Research";
           "License :: OSI Approved :: GNU General Public License v3 (GPLv3)";
           "Natural Language :: English";
           "Operating System :: OS Independent";
           "Topic :: Scientific/Engineering";
           "Topic :: Scientific/Engineering :: Physics" ];
       packages := found;
       extras_require := extras;
       install_requires :=
         [ "dask";
           "diffsims       ~= 0.4";
           "hyperspy       >= 1.7.0";
           "ipywidgets";
           "lmfit          >= 0.9.12";
           "matplotlib     >= 3.1.1";
           "numba";
           "numpy";
           "orix           >= 0.3";
           "psutil";
           "pyfai";
           "scikit-image   >= 0.17.0";
           "scikit-learn   >= 0.19";
           "scipy";
           "transforms3d" ];
       python_requires := ">=3.7";
       package_data :=
         <["" := [ "LICENSE"; "README.rst" ]]>
         (<["pyxem" := [ "*.py"; "hyperspy_extension.yaml" ]]> ∅);
       entry_points :=
         <["hyperspy.extensions" := [ "pyxem = pyxem" ]]> ∅ |}.

End Script.

(** A working directory with both files, and a release file that binds the
    five names the manifest reads. *)
Definition release_text : string :=
  "name = 'pyxem'; version = '0'; author = 'a'; email = 'e'; license = 'GPLv3'".

Definition sample_env : env :=
  {| files :=
       <["pyxem/release_info.py" := release_text]>
       (<["README.rst" := "pyXem"]> ∅);
     exec_text := λ _,
       Ok [ ("name", "pyxem"); ("version", "0"); ("author", "a");
            ("email", "e"); ("license", "GPLv3") ];
     found_packages := [ "pyxem"; "pyxem.detectors" ];
     has_setuptools := true |}.

(** An entry point is declared by a line that gives a name to an object. *)
Definition entry_line (entry object : string) : string :=
  entry +:+ " = " +:+ object.

(** A release file that also binds [extra_feature_requirements]. *)
Definition extras_env : env :=
  {| files := files sample_env;
     exec_text := λ _,
       Ok [ ("name", "pyxem"); ("version", "0"); ("author", "a");
            ("email", "e"); ("extra_feature_requirements", "x") ];
     found_packages := [];
     has_setuptools := true |}.

(** A release file that assigns [version] twice and [license] never. *)
Definition two_versions_env : env :=
  {| files := files sample_env;
     exec_text := λ _,
       Ok [ ("version", "0.1"); ("name", "pyxem"); ("author", "a");
            ("email", "e"); ("version", "0.2") ];
     found_packages := [ "pyxem" ];
     has_setuptools := true |}.

(** The value an executed text leaves a name with: the one it assigns
    last. *)
Fixpoint bound_value (n : string) (bound : list (string * string))
  : option string :=
  match bound with
  | [] => None
  | (k, v) :: rest =>
      match bound_value n rest with
      | Some v' => Some v'
      | None => if String.eqb k n then Some v else None
      end
  end.

End Setup.

(** ** The detector descriptor of the data model *)

Module Geometry.

Definition handle : Type := string.

(** Modelled from the spec: the classes [GenericFlatDetector],
    [Medipix256x256Detector] and [Medipix515x515Detector] are defined in
    submodules that are outside the excerpt, and so is any code that turns
    a descriptor into its fields and back.  The record has the attributes
    the data model lists for a descriptor. *)
Record DetectorGeometry : Type := {
  pixel_count_x : Z;
  pixel_count_y : Z;
  pixel_size_x : Q;
  pixel_size_y : Q;
  spline_distortion_reference : option handle;
  mask_reference : option handle
}.

Definition field_tuple : Type :=
  Z * Z * Q * Q * option handle * option handle.

(** Modelled from the spec: the ranges the data model gives the
    attributes, counts of at least one and positive sizes. *)
Definition in_range (d : DetectorGeometry) : Prop :=
  (1 <= pixel_count_x d)%Z ∧ (1 <= pixel_count_y d)%Z
  ∧ (0 < pixel_size_x d)%Q ∧ (0 < pixel_size_y d)%Q.

Definition in_rangeb (d : DetectorGeometry) : bool :=
  (1 <=? pixel_count_x d)%Z && (1 <=? pixel_count_y d)%Z
  && negb (Qle_bool (pixel_size_x d) 0) && negb (Qle_bool (pixel_size_y d) 0).

(** Modelled from the spec: a descriptor written as the tuple of its
    fields. *)
Definition to_tuple (d : DetectorGeometry) : field_tuple :=
  (pixel_count_x d, pixel_count_y d, pixel_size_x d, pixel_size_y d,
   spline_distortion_reference d, mask_reference d).

(** Modelled from the spec: a descriptor built from a tuple of fields;
    fields out of range build nothing. *)
Definition of_tuple (t : field_tuple) : option DetectorGeometry :=
  let '(nx, ny, sx, sy, spline, mask) := t in
  let d := {| pixel_count_x := nx; pixel_count_y := ny;
              pixel_size_x := sx; pixel_size_y := sy;
              spline_distortion_reference := spline;
              mask_reference := mask |} in
  if in_rangeb d then Some d else None.

Definition sample_geometry : DetectorGeometry :=
  {| pixel_count_x := 256; pixel_count_y := 256;
     pixel_size_x := 1 # 2; pixel_size_y := 1 # 2;
     spline_distortion_reference := None;
     mask_reference := Some "mask" |}.

End Geometry.

(** * Properties of the package index *)

Module DetectorsFacts.
Import Py Detectors.

(** ** How a run of the body changes a namespace *)

Section BodyFacts.

Variable tree : gmap string (gmap string value).




End BodyFacts.

(** ** The namespace of the imported index *)

Lemma index_namespace_unfold :
  index_namespace =
  <["__all__" := VList exported_names]>
  (<["Medipix515x515Detector" :=
       VClass (qualify "medipix_515x515") "Medipix515x515Detector"]>
  (<["medipix_515x515" := VModule (qualify "medipix_515x515")]>
  (<["Medipix256x256Detector" :=
       VClass (qualify "medipix_256x256") "Medipix256x256Detector"]>
  (<["medipix_256x256" := VModule (qualify "medipix_256x256")]>
  (<["GenericFlatDetector" :=
       VClass (qualify "generic_flat_detector") "GenericFlatDetector"]>
  (<["generic_flat_detector" := VModule (qualify "generic_flat_detector")]>
  (<["__doc__" := VStr "Detectors defined fro pyFAI integration"]>
   fresh_module))))))).
Proof. reflexivity. Qed.

Lemma provides_sample : provides sample_tree.
Proof.
  unfold provides; simpl.
  repeat constructor; eexists; split; reflexivity.
Qed.

Lemma exec_body_provides tree :
  provides tree → exec_body tree body fresh_module = (index_namespace, None).
Proof.
  unfold provides; simpl. intros H.
  repeat match goal with
         | H : Forall _ (_ :: _) |- _ => apply Forall_cons in H as [? H]
         end.
  repeat match goal with
         | H : defines_class _ _ |- _ => destruct H as (? & ? & ?)
         end.
  simpl in *. rewrite index_namespace_unfold. unfold exec_body, body, exec_stmt.
  repeat match goal with
         | H : _ !! _ = Some _ |- _ => rewrite H; clear H
         end.
  reflexivity.
Qed.

(** Reading a name that is not bound finds nothing. *)
Lemma index_lookup_unbound name :
  ¬ In name bound_names → index_namespace !! name = None.
Proof.
  intros Hout. rewrite index_namespace_unfold. unfold fresh_module.
  rewrite !lookup_insert_ne; [apply lookup_empty|..];
    intros <-; apply Hout; simpl; tauto.
Qed.

Lemma index_lookup_bound name :
  In name bound_names → is_Some (index_namespace !! name).
Proof.
  simpl. intros H.
  repeat (destruct H as [<-|H]; [by eexists|]). destruct H.
Qed.

(** The only names bound to classes are those of [__all__]. *)
Lemma index_lookup_class name m c :
  index_namespace !! name = Some (VClass m c) → In name exported_names.
Proof.
  rewrite index_namespace_unfold. unfold fresh_module.
  rewrite !lookup_insert.
  repeat (case_decide; [subst; simpl; first [discriminate | tauto]|]).
  by rewrite lookup_empty.
Qed.

Lemma index_lookup_import submodule name :
  In (submodule, name) (imports_of body) →
  index_namespace !! name = Some (VClass (qualify submodule) name).
Proof.
  simpl. intros H.
  repeat (destruct H as [[= <- <-]|H]; [reflexivity|]). destruct H.
Qed.

Lemma exported_names_imports :
  exported_names = map snd (imports_of body).
Proof. reflexivity. Qed.

(** ** Lookups *)

Lemma get_ready tree st name :
  provides tree → ready tree st →
  get tree name st = (getattr index_namespace name, Some index_namespace).
Proof.
  intros Hp [->|(ns & -> & Hns)]; unfold get, import_package.
  - by rewrite (exec_body_provides _ Hp).
  - rewrite (exec_body_provides _ Hp) in Hns. by inversion Hns.
Qed.

(** When the body raises, every lookup raises the same exception and the
    index is left out of [sys.modules]. *)
Lemma get_import_failure tree ns e name :
  exec_body tree body fresh_module = (ns, Some e) →
  get tree name None = (Err e, None).
Proof. intros H. unfold get, import_package. by rewrite H. Qed.

Example get_broken_tree name :
  get broken_tree name None
  = (Err (ModuleNotFoundError "pyxem.detectors.medipix_256x256"), None).
Proof. by eapply get_import_failure. Qed.

(** A star import of the index binds the three classes and nothing else. *)
Example import_star_index :
  import_star index_namespace
  = (<["Medipix515x515Detector" :=
         VClass (qualify "medipix_515x515") "Medipix515x515Detector"]>
     (<["Medipix256x256Detector" :=
         VClass (qualify "medipix_256x256") "Medipix256x256Detector"]>
     (<["GenericFlatDetector" :=
         VClass (qualify "generic_flat_detector") "GenericFlatDetector"]> ∅)),
     None).
Proof. reflexivity. Qed.

(** A listing that succeeds is the literal of the source, whatever the
    submodules define. *)
Lemma exec_body_all tree ns :
  exec_body tree body fresh_module = (ns, None) →
  ns !! "__all__" = Some (VList exported_names).
Proof.
  unfold body, exec_body, exec_stmt. intros H.
  repeat match type of H with
         | context [match ?x !! ?k with _ => _ end] =>
             destruct (x !! k); [|discriminate]
         end.
  inversion H; subst. apply lookup_insert_eq.
Qed.

Lemma listing_ok_exact tree st l st' :
  ready tree st → listing tree st = (Ok l, st') → l = exported_names.
Proof.
  unfold listing, get, import_package, getattr.
  intros [->|(ns & -> & Hns)].
  - destruct (exec_body tree body fresh_module) as [ns [e|]] eqn:Hns;
      [discriminate|].
    rewrite (exec_body_all _ _ Hns). by intros [= <- _].
  - rewrite (exec_body_all _ _ Hns). by intros [= <- _].
Qed.

(** Under which names a lookup returns a detector class. *)
Lemma get_class_iff tree st name :
  provides tree → ready tree st → is_public name = true →
  (∃ m c, (get tree name st).1 = Ok (VClass m c)) ↔ In name exported_names.
Proof.
  intros Hp Hst _. rewrite (get_ready _ _ _ Hp Hst). unfold getattr; simpl fst.
  split.
  - intros (m & c & H).
    destruct (index_namespace !! name) as [v|] eqn:Hl; [|discriminate].
    inversion H; subst. eapply index_lookup_class, Hl.
  - rewrite exported_names_imports, in_map_iff.
    intros ([submodule n] & <- & Hin). simpl.
    rewrite (index_lookup_import _ _ Hin). eauto.
Qed.

Lemma exported_names_NoDup : NoDup exported_names.
Proof.
  unfold exported_names.
  repeat (apply NoDup_cons_2; [rewrite list_elem_of_In; simpl; intuition discriminate|]).
  apply NoDup_nil_2.
Qed.

(** C1, as the specification words it, at the sample tree: a name of the
    specification is not bound, another one is bound to a submodule and not
    to a detector, and a detector is found under a name the specification
    does not list. *)
Lemma get_spec_names_counterexample :
  In "generic_flat" spec_names
  ∧ (get sample_tree "generic_flat" None).1
      = Err (AttributeError "pyxem.detectors" "generic_flat")
  ∧ In "medipix_256x256" spec_names
  ∧ (get sample_tree "medipix_256x256" None).1
      = Ok (VModule "pyxem.detectors.medipix_256x256")
  ∧ ¬ In "Medipix256x256Detector" spec_names
  ∧ (get sample_tree "Medipix256x256Detector" None).1
      = Ok (VClass "pyxem.detectors.medipix_256x256" "Medipix256x256Detector").
Proof.
  repeat split; try reflexivity; simpl; try tauto.
  intros H. repeat (destruct H as [H|H]; [discriminate|]). destruct H.
Qed.

(** Among the names bound in the imported index, those that do not start
    with an underscore are the three exported names and the three
    submodule names. *)
Lemma bound_names_public name :
  is_public name = true →
  In name bound_names
  ↔ In name exported_names ∨ In name (map fst (imports_of body)).
Proof.
  intros Hpub. split.
  - simpl. intros H.
    repeat (destruct H as [<-|H];
            [first [discriminate Hpub | tauto]|]).
    destruct H.
  - simpl. intros [H|H];
      repeat (destruct H as [<-|H]; [tauto|]); destruct H.
Qed.

Lemma index_lookup_submodule submodule name :
  In (submodule, name) (imports_of body) →
  index_namespace !! submodule = Some (VModule (qualify submodule)).
Proof.
  simpl. intros H.
  repeat (destruct H as [[= <- <-]|H]; [reflexivity|]). destruct H.
Qed.

(** C1 (amended): when the three submodules define their classes, a lookup
    in the index of a name that does not start with an underscore returns
    a detector class exactly for the three names of [__all__], each bound
    to the class of the submodule it is imported from; it succeeds exactly
    for those three names and for the three submodule names, which are
    bound to the submodules; for every other such name it raises
    [AttributeError], with no value returned. *)
Theorem get_by_exported_name tree st name :
  provides tree → ready tree st → is_public name = true →
  (∀ submodule, In (submodule, name) (imports_of body) →
     (get tree name st).1 = Ok (VClass (qualify submodule) name))
  ∧ (∀ imported, In (name, imported) (imports_of body) →
     (get tree name st).1 = Ok (VModule (qualify name)))
  ∧ ((∃ m c, (get tree name st).1 = Ok (VClass m c)) ↔ In name exported_names)
  ∧ (is_ok (get tree name st).1 = true
     ↔ In name exported_names ∨ In name (map fst (imports_of body)))
  ∧ (¬ In name exported_names → ¬ In name (map fst (imports_of body)) →
     (get tree name st).1 = Err (AttributeError package name)).
Proof.
  intros Hp Hst Hpub.
  split; [|split; [|split; [by apply get_class_iff|]]];
    rewrite (get_ready _ _ _ Hp Hst); unfold getattr; cbn [fst].
  - intros submodule Hin. by rewrite (index_lookup_import _ _ Hin).
  - intros imported Hin. by rewrite (index_lookup_submodule _ _ Hin).
  - rewrite <- (bound_names_public _ Hpub). split; [split|].
    + intros H. destruct (in_dec string_dec name bound_names) as [|Hout]; [done|].
      rewrite (index_lookup_unbound _ Hout) in H. discriminate.
    + intros H. by destruct (index_lookup_bound _ H) as [v ->].
    + intros Hout1 Hout2. rewrite index_lookup_unbound; [done|].
      rewrite (bound_names_public _ Hpub). tauto.
Qed.

Lemma get_by_exported_name_witness :
  provides sample_tree ∧ ready sample_tree None
  ∧ is_public "Medipix515x515Detector" = true
  ∧ (get sample_tree "Medipix515x515Detector" None).1
      = Ok (VClass (qualify "medipix_515x515") "Medipix515x515Detector").
Proof.
  assert (Hp : provides sample_tree)
    by (unfold provides; simpl; repeat constructor; eexists; split; reflexivity).
  assert (Hr : ready sample_tree None) by (left; reflexivity).
  split; [exact Hp|]. split; [exact Hr|]. split; [reflexivity|].
  apply (get_by_exported_name sample_tree None "Medipix515x515Detector" Hp Hr
           eq_refl).
  simpl; tauto.
Defined.

(** C2, as the specification words it, at the sample tree: the listing is
    not the list of the three names of the specification, and holds none
    of them. *)
Lemma listing_spec_names_counterexample :
  (listing sample_tree None).1 = Ok exported_names
  ∧ (listing sample_tree None).1 ≠ Ok spec_names
  ∧ Forall (λ name, ¬ In name exported_names) spec_names.
Proof.
  split; [reflexivity|]. split; [discriminate|].
  repeat constructor; simpl; intuition discriminate.
Qed.

(** C2 (amended): the listing of the index is the list of the three
    exported names, in the order of the source, the same at every call,
    without duplicates; among the names that do not start with an
    underscore, the listed ones are exactly those under which a lookup
    returns a detector class. *)
Theorem listing_exported_names tree st :
  provides tree → ready tree st →
  ∃ st', listing tree st = (Ok exported_names, st')
    ∧ listing tree st' = (Ok exported_names, st')
    ∧ exported_names = map snd (imports_of body)
    ∧ length exported_names = 3%nat
    ∧ NoDup exported_names
    ∧ ∀ name, is_public name = true →
        (In name exported_names
         ↔ ∃ m c, (get tree name st').1 = Ok (VClass m c)).
Proof.
  intros Hp Hst. exists (Some index_namespace).
  assert (Hst' : ready tree (Some index_namespace)).
  { right. exists index_namespace. split; [done|]. by apply exec_body_provides. }
  unfold listing. rewrite !(get_ready _ _ _ Hp Hst), !(get_ready _ _ _ Hp Hst').
  split; [reflexivity|]. split; [reflexivity|]. split; [reflexivity|].
  split; [reflexivity|]. split; [apply exported_names_NoDup|].
  intros name Hpub. symmetry. by apply get_class_iff.
Qed.

Lemma listing_exported_names_witness :
  provides sample_tree ∧ ready sample_tree None
  ∧ (listing sample_tree None).1
      = Ok [ "GenericFlatDetector"; "Medipix256x256Detector";
             "Medipix515x515Detector" ].
Proof.
  assert (Hp : provides sample_tree)
    by (unfold provides; simpl; repeat constructor; eexists; split; reflexivity).
  assert (Hr : ready sample_tree None) by (left; reflexivity).
  split; [exact Hp|]. split; [exact Hr|].
  destruct (listing_exported_names sample_tree None Hp Hr) as (st' & -> & _).
  reflexivity.
Defined.

(** A second import finds what the first one has left. *)
Lemma import_package_again tree st r st' :
  import_package tree st = (r, st') → import_package tree st' = (r, st').
Proof.
  unfold import_package. destruct st as [ns|].
  - by intros [= <- <-].
  - destruct (exec_body tree body fresh_module) as [ns [e|]] eqn:Hrun;
      by intros [= <- <-].
Qed.

(** C4: two lookups of the same name, one after the other, give the same
    result and leave the same state, whatever the name, the source tree and
    the state the first lookup starts in. *)
Theorem get_twice tree st name :
  (get tree name (get tree name st).2).1 = (get tree name st).1
  ∧ (get tree name (get tree name st).2).2 = (get tree name st).2.
Proof.
  unfold get.
  destruct (import_package tree st) as [r st'] eqn:Himp.
  pose proof (import_package_again _ _ _ _ Himp) as Hagain.
  destruct r as [ns|e]; cbn [fst snd]; by rewrite Hagain.
Qed.

End DetectorsFacts.

(** * Properties of the build manifest *)

Module SetupFacts.
Import Py Setup.

(** ** What a finished run of the script has gone through *)

Lemma mbind_ok {A B : Type} (c : result A) (k : A → result B) (b : B) :
  (c ≫= k) = Ok b → ∃ a, c = Ok a ∧ k a = Ok b.
Proof. destruct c as [a|ex]; [eauto | discriminate]. Qed.

Lemma call_open_ok e f path text :
  call_open e f path = Ok text → f = VOpen ∧ files e !! path = Some text.
Proof.
  destruct f; try discriminate. unfold call_open.
  destruct (files e !! path); [|discriminate]. by intros [= ->].
Qed.

Lemma call_exec_ok e f text bound :
  call_exec e f text = Ok bound → f = VExec ∧ exec_text e text = Ok bound.
Proof. destruct f; try discriminate. by intros H. Qed.

Lemma call_setup_ok f kwargs call :
  call_setup f kwargs = Ok call → f = VSetup ∧ call = kwargs.
Proof. destruct f; try discriminate. by intros [= ->]. Qed.

Lemma bind_all_unbound bound : ∀ g n,
  ¬ In n (map fst bound) → bind_all bound g !! n = g !! n.
Proof.
  induction bound as [|[k v] bound IH]; intros g n Hn; [done|].
  simpl in *. rewrite IH by tauto. rewrite lookup_insert_ne; [done | tauto].
Qed.

(** A name that neither the globals of the script nor the builtins have is
    bound only if the executed text binds it. *)
Lemma lookup_name_unbound bound n :
  In n [ "name"; "version"; "author"; "email" ] →
  ¬ In n (map fst bound) →
  lookup_name
    (<["extra_feature_requirements" := VDict extra_feature_requirements]>
       (bind_all bound
          (<["find_packages" := VFindPackages]>
             (<["setup" := VSetup]> main_globals)))) n
  = Err (NameError n).
Proof.
  intros Hn Hb. unfold lookup_name.
  rewrite lookup_insert_ne, (bind_all_unbound _ _ _ Hb).
  - simpl in Hn. repeat (destruct Hn as [<-|Hn]; [reflexivity|]). destruct Hn.
  - simpl in Hn. intros <-. intuition discriminate.
Qed.

Lemma run_manifest_inv e call :
  run_manifest e = Ok call →
  has_setuptools e = true
  ∧ ∃ text bound readme a_name a_version a_author a_email a_license extras,
      files e !! "pyxem/release_info.py" = Some text
      ∧ exec_text e text = Ok bound
      ∧ files e !! "README.rst" = Some readme
      ∧ (∀ n, In n [ "name"; "version"; "author"; "email" ] →
           In n (map fst bound))
      ∧ call =
        {| name := a_name;
           version := a_version;
           description := "multi-dimensional diffraction microscopy";
           author := a_author;
           author_email := a_email;
           license := a_license;
           url := "https://github.com/pyxem/pyxem";
           long_description := readme;
           keywords := keywords call;
           classifiers := classifiers call;
           packages := found_packages e;
           extras_require := extras;
           install_requires :=
             [ "dask";
               "diffsims       ~= 0.4";
               "hyperspy       >= 1.7.0";
               "ipywidgets";
               "lmfit          >= 0.9.12";
               "matplotlib     >= 3.1.1";
               "numba";
               "numpy";
               "orix           >= 0.3";
               "psutil";
               "pyfai";
               "scikit-image   >= 0.17.0";
               "scikit-learn   >= 0.19";
               "scipy";
               "transforms3d" ];
           python_requires := ">=3.7";
           package_data :=
             <["" := [ "LICENSE"; "README.rst" ]]>
             (<["pyxem" := [ "*.py"; "hyperspy_extension.yaml" ]]> ∅);
           entry_points :=
             <["hyperspy.extensions" := [ "pyxem = pyxem" ]]> ∅ |}.
Proof.
  unfold run_manifest, import_setuptools. intros H.
  destruct (has_setuptools e); [|discriminate]. split; [done|].
  apply mbind_ok in H as (g0 & [= <-] & H).
  apply mbind_ok in H as (exec_f & [= <-] & H).
  apply mbind_ok in H as (open_f & [= <-] & H).
  apply mbind_ok in H as (text & [_ Htext]%call_open_ok & H).
  apply mbind_ok in H as (bound & [_ Hbound]%call_exec_ok & H).
  cbv zeta in H.
  apply mbind_ok in H as (setup_f & _ & H).
  apply mbind_ok in H as (a_name & Hname & H).
  apply mbind_ok in H as (a_version & Hversion & H).
  apply mbind_ok in H as (a_author & Hauthor & H).
  apply mbind_ok in H as (a_email & Hemail & H).
  apply mbind_ok in H as (a_license & _ & H).
  apply mbind_ok in H as (open_f' & _ & H).
  apply mbind_ok in H as (readme & [_ Hreadme]%call_open_ok & H).
  apply mbind_ok in H as (find_f & _ & H).
  apply mbind_ok in H as (found & Hfound & H).
  apply mbind_ok in H as (extras & _ & H).
  apply call_setup_ok in H as [_ ->].
  destruct find_f; try discriminate. injection Hfound as <-.
  exists text, bound, readme, a_name, a_version, a_author, a_email, a_license,
    extras.
  repeat split; try done.
  intros n Hn. destruct (in_dec string_dec n (map fst bound)) as [|Hout]; [done|].
  pose proof (lookup_name_unbound bound n Hn Hout) as Herr.
  simpl in Hn.
  repeat (destruct Hn as [<-|Hn]; [congruence|]). destruct Hn.
Qed.

(** C8: whenever the script reaches the call of [setup], the entry points
    it passes declare one group, [hyperspy.extensions], holding the single
    line [pyxem = pyxem]: the entry named [pyxem] is the package [pyxem],
    the package the manifest ships data files for. *)
Theorem entry_points_extension e call :
  run_manifest e = Ok call →
  entry_points call = {[ "hyperspy.extensions" := [ "pyxem = pyxem" ] ]}
  ∧ entry_points call !! "hyperspy.extensions"
      = Some [ entry_line "pyxem" "pyxem" ]
  ∧ (∀ group, group ≠ "hyperspy.extensions" → entry_points call !! group = None)
  ∧ is_Some (package_data call !! "pyxem").
Proof.
  intros H. apply run_manifest_inv in H as (_ & H).
  destruct H as (? & ? & ? & ? & ? & ? & ? & ? & ? & _ & _ & _ & _ & ->).
  cbn [entry_points package_data]. split; [|split; [|split]].
  - apply insert_empty.
  - reflexivity.
  - intros group Hne. by rewrite lookup_insert_ne, lookup_empty.
  - by eexists.
Qed.

Lemma entry_points_extension_witness :
  ∃ call, run_manifest sample_env = Ok call
    ∧ entry_points call !! "hyperspy.extensions" = Some [ "pyxem = pyxem" ].
Proof.
  eexists. split; [reflexivity|].
  apply (entry_points_extension sample_env _ eq_refl).
Defined.

(** C9: whenever the script reaches the call of [setup], the requirement
    [pyfai] is among [install_requires], with no version constraint, and
    [python_requires] is [>=3.7]. *)
Theorem install_requires_pyfai e call :
  run_manifest e = Ok call →
  In "pyfai" (install_requires call)
  ∧ install_requires call !! 10%nat = Some "pyfai"
  ∧ length (install_requires call) = 15%nat
  ∧ python_requires call = ">=3.7".
Proof.
  intros H. apply run_manifest_inv in H as (_ & H).
  destruct H as (? & ? & ? & ? & ? & ? & ? & ? & ? & _ & _ & _ & _ & ->).
  cbn [install_requires python_requires]. repeat split. simpl; tauto.
Qed.

Lemma install_requires_pyfai_witness :
  ∃ call, run_manifest sample_env = Ok call
    ∧ In "pyfai" (install_requires call).
Proof.
  eexists. split; [reflexivity|].
  apply (install_requires_pyfai sample_env _ eq_refl).
Defined.

(** The globals of the script after its import statement, and after the
    executed text and the assignment of [extra_feature_requirements]. *)
Lemma lookup_after_exec_unbound bound n :
  n ≠ "extra_feature_requirements" → ¬ In n (map fst bound) →
  lookup_name
    (<["extra_feature_requirements" := VDict extra_feature_requirements]>
       (bind_all bound
          (<["find_packages" := VFindPackages]>
             (<["setup" := VSetup]> main_globals)))) n
  = lookup_name
      (<["find_packages" := VFindPackages]>
         (<["setup" := VSetup]> main_globals)) n.
Proof.
  intros Hne Hout. unfold lookup_name.
  by rewrite lookup_insert_ne, (bind_all_unbound _ _ _ Hout).
Qed.

Lemma bind_all_bound bound : ∀ g n,
  In n (map fst bound) → ∃ v, bind_all bound g !! n = Some (VStr v).
Proof.
  induction bound as [|[k v] bound IH]; intros g n Hn; [destruct Hn|].
  destruct (in_dec string_dec n (map fst bound)) as [Hin|Hout].
  - by apply IH.
  - destruct Hn as [<-|Hn]; [|done]. exists v. simpl.
    fold (bind_all bound (<[k := VStr v]> g)).
    rewrite bind_all_unbound by done. apply lookup_insert_eq.
Qed.

Lemma lookup_after_exec_bound bound n g :
  n ≠ "extra_feature_requirements" → In n (map fst bound) →
  ∃ v, lookup_name
         (<["extra_feature_requirements" := VDict extra_feature_requirements]>
            (bind_all bound g)) n = Ok (VStr v).
Proof.
  intros Hne Hin. destruct (bind_all_bound bound g n Hin) as [v Hv].
  exists v. unfold lookup_name. by rewrite lookup_insert_ne, Hv.
Qed.

Lemma lookup_before_exec :
  let g := <["find_packages" := VFindPackages]>
             (<["setup" := VSetup]> main_globals) in
  lookup_name g "exec" = Ok VExec
  ∧ lookup_name g "open" = Ok VOpen
  ∧ lookup_name g "setup" = Ok VSetup
  ∧ lookup_name g "find_packages" = Ok VFindPackages
  ∧ lookup_name g "license" = Ok (VBuiltin "license").
Proof. repeat split; reflexivity. Qed.

Lemma lookup_extra g :
  lookup_name
    (<["extra_feature_requirements" := VDict extra_feature_requirements]> g)
    "extra_feature_requirements"
  = Ok (VDict extra_feature_requirements).
Proof. unfold lookup_name. by rewrite lookup_insert_eq. Qed.

(** With both files in place and a release text that binds the four names
    and shadows none of the functions the script calls, [setup] is called,
    whether or not [license] is bound. *)
Lemma run_manifest_calls e text bound readme :
  has_setuptools e = true →
  files e !! "pyxem/release_info.py" = Some text →
  exec_text e text = Ok bound →
  files e !! "README.rst" = Some readme →
  (∀ n, In n [ "name"; "version"; "author"; "email" ] →
        In n (map fst bound)) →
  (∀ n, In n [ "open"; "setup"; "find_packages" ] →
        ¬ In n (map fst bound)) →
  ∃ call, run_manifest e = Ok call
    ∧ long_description call = readme
    ∧ packages call = found_packages e
    ∧ (¬ In "license" (map fst bound) → license call = VBuiltin "license").
Proof.
  intros Hs Htext Hbound Hreadme Hnames Hfree.
  destruct lookup_before_exec as (Hexec & Hopen & Hsetup & Hfind & Hlic).
  cbv zeta in Hexec, Hopen, Hsetup, Hfind, Hlic.
  unfold run_manifest, import_setuptools. rewrite Hs.
  cbn [mbind result_bind bind]. rewrite Hexec, Hopen.
  cbn [mbind result_bind bind]. unfold call_open. rewrite Htext.
  cbn [mbind result_bind bind call_exec]. rewrite Hbound.
  cbn [mbind result_bind bind]. cbv zeta.
  rewrite (lookup_after_exec_unbound bound "setup"), Hsetup
    by (try done; apply Hfree; simpl; tauto).
  rewrite (lookup_after_exec_unbound bound "open"), Hopen
    by (try done; apply Hfree; simpl; tauto).
  rewrite (lookup_after_exec_unbound bound "find_packages"), Hfind
    by (try done; apply Hfree; simpl; tauto).
  rewrite lookup_extra.
  destruct (lookup_after_exec_bound bound "name"
              (<["find_packages" := VFindPackages]>
                 (<["setup" := VSetup]> main_globals)))
    as [v1 ->]; [done | apply Hnames; simpl; tauto |].
  destruct (lookup_after_exec_bound bound "version"
              (<["find_packages" := VFindPackages]>
                 (<["setup" := VSetup]> main_globals)))
    as [v2 ->]; [done | apply Hnames; simpl; tauto |].
  destruct (lookup_after_exec_bound bound "author"
              (<["find_packages" := VFindPackages]>
                 (<["setup" := VSetup]> main_globals)))
    as [v3 ->]; [done | apply Hnames; simpl; tauto |].
  destruct (lookup_after_exec_bound bound "email"
              (<["find_packages" := VFindPackages]>
                 (<["setup" := VSetup]> main_globals)))
    as [v4 ->]; [done | apply Hnames; simpl; tauto |].
  cbn [mbind result_bind bind call_find_packages call_setup].
  rewrite Hreadme.
  destruct (in_dec string_dec "license" (map fst bound)) as [Hin|Hout].
  - destruct (lookup_after_exec_bound bound "license"
                (<["find_packages" := VFindPackages]>
                   (<["setup" := VSetup]> main_globals)))
      as [v5 ->]; [done | done |].
    cbn [mbind result_bind bind call_find_packages call_setup].
    eexists. split; [reflexivity|]. cbn. repeat split; done.
  - rewrite (lookup_after_exec_unbound bound "license"), Hlic by done.
    cbn [mbind result_bind bind call_find_packages call_setup].
    eexists. split; [reflexivity|]. cbn. repeat split; done.
Qed.

End SetupFacts.

(** * Properties of the descriptor *)

Module GeometryFacts.
Import Geometry.

Lemma in_rangeb_spec d : in_rangeb d = true ↔ in_range d.
Proof.
  unfold in_rangeb, in_range.
  rewrite !andb_true_iff, !negb_true_iff, !Z.leb_le.
  rewrite <- !not_true_iff_false, !Qle_bool_iff.
  split; intros (((? & ?) & ?) & ?) || intros (? & ? & ? & ?);
    repeat split; try done;
    first [by apply Qnot_le_lt | by apply Qlt_not_le].
Qed.

(** C7: a descriptor whose fields are in range, written as its field tuple
    and built again from that tuple, is the descriptor itself, equal in
    every field. *)
Theorem of_tuple_to_tuple d :
  in_range d →
  of_tuple (to_tuple d) = Some d
  ∧ ∀ d', of_tuple (to_tuple d) = Some d' →
      pixel_count_x d' = pixel_count_x d
      ∧ pixel_count_y d' = pixel_count_y d
      ∧ pixel_size_x d' = pixel_size_x d
      ∧ pixel_size_y d' = pixel_size_y d
      ∧ spline_distortion_reference d' = spline_distortion_reference d
      ∧ mask_reference d' = mask_reference d.
Proof.
  intros Hd. apply in_rangeb_spec in Hd.
  assert (Hrt : of_tuple (to_tuple d) = Some d).
  { destruct d; unfold of_tuple, to_tuple; cbn [pixel_count_x pixel_count_y
      pixel_size_x pixel_size_y spline_distortion_reference mask_reference].
    by rewrite Hd. }
  split; [exact Hrt|]. intros d' Hd'. rewrite Hrt in Hd'.
  by injection Hd' as <-.
Qed.

Lemma of_tuple_to_tuple_witness :
  in_range sample_geometry
  ∧ of_tuple (to_tuple sample_geometry) = Some sample_geometry.
Proof.
  assert (H : in_range sample_geometry)
    by (unfold in_range; simpl; repeat split; lia || reflexivity).
  split; [exact H|].
  apply (of_tuple_to_tuple sample_geometry H).
Defined.

End GeometryFacts.

(** * The index under any source tree *)

Module IndexFacts.
Import Py Detectors DetectorsFacts.

Section AnyTree.

Variable tree : gmap string (gmap string value).

Lemma importable_dec sn : importable tree sn ∨ ¬ importable tree sn.
Proof.
  unfold importable. destruct (tree !! qualify sn.1) as [exported|] eqn:Ht.
  - destruct (exported !! sn.2) as [v|] eqn:Hv.
    + left. exists exported. split; [done | by eexists].
    + right. intros (ex' & [= <-] & [v Hv']). congruence.
  - right. intros (ex' & [=] & _).
Qed.

Lemma exec_stmt_import_ok submodule name ns :
  importable tree (submodule, name) →
  ∃ exported v, tree !! qualify submodule = Some exported
    ∧ exported !! name = Some v
    ∧ exec_stmt tree (FromImport submodule name) ns
      = (<[name := v]> (<[submodule := VModule (qualify submodule)]> ns), None).
Proof.
  intros (exported & Ht & [v Hv]); simpl in *. exists exported, v.
  split; [done|]. split; [done|]. by rewrite Ht, Hv.
Qed.

Lemma exec_stmt_import_fails submodule name ns :
  ¬ importable tree (submodule, name) →
  (exec_stmt tree (FromImport submodule name) ns).2
  = Some (import_error tree (submodule, name)).
Proof.
  intros Hno. unfold import_error; simpl.
  destruct (tree !! qualify submodule) as [exported|] eqn:Ht; [|done].
  destruct (exported !! name) as [v|] eqn:Hv; [|done].
  exfalso. apply Hno. exists exported. split; [done | by eexists].
Qed.

(** A body finishes exactly when each of its imports can be done. *)
Lemma exec_body_ok_iff ss : ∀ ns,
  (exec_body tree ss ns).2 = None ↔ Forall (importable tree) (imports_of ss).
Proof.
  induction ss as [|s ss IH]; intros ns; [by split|].
  destruct s as [text|submodule name|target v]; simpl.
  - apply IH.
  - destruct (importable_dec (submodule, name)) as [Hyes|Hno].
    + destruct (exec_stmt_import_ok submodule name ns Hyes)
        as (exported & v & Ht & Hv & Hrun).
      simpl in Hrun. rewrite Hrun, IH. rewrite Forall_cons. tauto.
    + pose proof (exec_stmt_import_fails submodule name ns Hno) as Hrun.
      simpl in Hrun.
      destruct (match tree !! qualify submodule with
                | Some _ => _ | None => _ end) as [ns' [e|]];
        [|discriminate].
      simpl. rewrite Forall_cons. split; [discriminate | tauto].
  - apply IH.
Qed.


(** A run of a body, finished or not, unbinds nothing. *)
Lemma exec_stmt_keeps s ns k :
  is_Some (ns !! k) → is_Some ((exec_stmt tree s ns).1 !! k).
Proof.
  intros Hk. destruct s as [text|submodule name|target v]; simpl.
  - rewrite lookup_insert. by case_decide.
  - destruct (tree !! qualify submodule) as [exported|]; [|done].
    destruct (exported !! name) as [v|]; simpl;
      rewrite !lookup_insert; repeat case_decide; done.
  - rewrite lookup_insert. by case_decide.
Qed.

Lemma exec_body_keeps ss : ∀ ns k,
  is_Some (ns !! k) → is_Some ((exec_body tree ss ns).1 !! k).
Proof.
  induction ss as [|s ss IH]; intros ns k Hk; [done|]. simpl.
  pose proof (exec_stmt_keeps s ns k Hk) as Hs.
  destruct (exec_stmt tree s ns) as [ns' [e|]]; simpl in *; [done|].
  by apply IH.
Qed.

(** The namespace of a finished import, whatever the submodules define. *)
Lemma exec_body_shape ns :
  exec_body tree body fresh_module = (ns, None) →
  ∃ e1 v1 e2 v2 e3 v3,
    tree !! qualify "generic_flat_detector" = Some e1
    ∧ e1 !! "GenericFlatDetector" = Some v1
    ∧ tree !! qualify "medipix_256x256" = Some e2
    ∧ e2 !! "Medipix256x256Detector" = Some v2
    ∧ tree !! qualify "medipix_515x515" = Some e3
    ∧ e3 !! "Medipix515x515Detector" = Some v3
    ∧ ns =
      <["__all__" := VList exported_names]>
      (<["Medipix515x515Detector" := v3]>
      (<["medipix_515x515" := VModule (qualify "medipix_515x515")]>
      (<["Medipix256x256Detector" := v2]>
      (<["medipix_256x256" := VModule (qualify "medipix_256x256")]>
      (<["GenericFlatDetector" := v1]>
      (<["generic_flat_detector" := VModule (qualify "generic_flat_detector")]>
      (<["__doc__" := VStr "Detectors defined fro pyFAI integration"]>
       fresh_module))))))).
Proof.
  unfold body, exec_body, exec_stmt. intros H.
  destruct (tree !! qualify "generic_flat_detector") as [e1|] eqn:H1;
    [|discriminate].
  destruct (e1 !! "GenericFlatDetector") as [v1|] eqn:H1'; [|discriminate].
  destruct (tree !! qualify "medipix_256x256") as [e2|] eqn:H2;
    [|discriminate].
  destruct (e2 !! "Medipix256x256Detector") as [v2|] eqn:H2'; [|discriminate].
  destruct (tree !! qualify "medipix_515x515") as [e3|] eqn:H3;
    [|discriminate].
  destruct (e3 !! "Medipix515x515Detector") as [v3|] eqn:H3'; [|discriminate].
  exists e1, v1, e2, v2, e3, v3. injection H as <-.
  repeat (split; [reflexivity || assumption|]). reflexivity.
Qed.

(** What a star import binds: the listed names, each as the module has it,
    on top of what was bound before. *)
Lemma star_bind_ok names : ∀ ns made,
  Forall (λ n, is_Some (ns !! n)) names →
  ∃ b, star_bind names ns made = (b, None)
    ∧ ∀ n, (In n names → b !! n = ns !! n)
           ∧ (¬ In n names → b !! n = made !! n).
Proof.
  induction names as [|m names IH]; intros ns made Hall.
  - exists made. split; [reflexivity|]. intros n. split; [intros [] | done].
  - apply Forall_cons in Hall as [[v Hv] Hall].
    destruct (IH ns (<[m := v]> made) Hall) as (b & Hb & Hl).
    exists b. split.
    { cbn [star_bind]. unfold getattr. by rewrite Hv. }
    intros n. destruct (Hl n) as [Hin Hout]. split.
    + intros [<-|Hn]; [|by apply Hin].
      destruct (in_dec string_dec m names) as [Hi|Ho]; [by apply Hin|].
      by rewrite (Hout Ho), lookup_insert_eq.
    + intros Hn. rewrite Hout by (intros ?; apply Hn; by right).
      rewrite lookup_insert_ne; [done|]. intros ->. apply Hn. by left.
Qed.


(** A run of the body at a reload, finished or not, unbinds nothing. *)
Lemma rerun_stmt_keeps s ns k :
  is_Some (ns !! k) → is_Some ((rerun_stmt tree s ns).1 !! k).
Proof.
  intros Hk. destruct s as [text|submodule name|target v]; simpl.
  - rewrite lookup_insert. by case_decide.
  - destruct (tree !! qualify submodule) as [exported|]; [|done].
    destruct (exported !! name) as [v|]; simpl; [|done].
    rewrite lookup_insert. by case_decide.
  - rewrite lookup_insert. by case_decide.
Qed.

Lemma rerun_body_keeps ss : ∀ ns k,
  is_Some (ns !! k) → is_Some ((rerun_body tree ss ns).1 !! k).
Proof.
  induction ss as [|s ss IH]; intros ns k Hk; [done|]. simpl.
  pose proof (rerun_stmt_keeps s ns k Hk) as Hs.
  destruct (rerun_stmt tree s ns) as [ns' [e|]]; simpl in *; [done|].
  by apply IH.
Qed.

Lemma init_module_attrs_keeps ns k :
  is_Some (ns !! k) → is_Some (init_module_attrs ns !! k).
Proof.
  intros Hk. unfold init_module_attrs.
  rewrite !lookup_insert. by repeat case_decide.
Qed.


Lemma with_builtins_keeps ns k :
  is_Some (ns !! k) → is_Some (with_builtins ns !! k).
Proof.
  intros Hk. unfold with_builtins.
  destruct (ns !! "__builtins__"); [done|].
  rewrite lookup_insert. by case_decide.
Qed.






End AnyTree.

(** X1: importing the index for the first time succeeds exactly when each
    of the three submodules can be loaded and has the name imported from
    it; the module is put in [sys.modules] when the import succeeds and is
    left out of it when an exception is raised. *)
Theorem import_package_outcome tree :
  match import_package tree None with
  | (Ok ns, st') =>
      st' = Some ns ∧ Forall (importable tree) (imports_of body)
  | (Err e, st') =>
      st' = None ∧ ¬ Forall (importable tree) (imports_of body)
  end.
Proof.
  unfold import_package.
  pose proof (exec_body_ok_iff tree body fresh_module) as Hiff.
  destruct (exec_body tree body fresh_module) as [ns [e|]]; simpl in Hiff.
  - split; [done|]. intros H. apply Hiff in H. discriminate.
  - split; [done|]. by apply Hiff.
Qed.



(** X3: a star import of the imported index never raises and binds exactly
    the three names of [__all__], each to the object the module has under
    that name; the submodule attributes and the dunder attributes are not
    bound, whatever the submodules define. *)
Theorem import_star_exports tree ns :
  exec_body tree body fresh_module = (ns, None) →
  ∃ b, import_star ns = (b, None)
    ∧ (∀ n, In n exported_names → b !! n = ns !! n ∧ is_Some (b !! n))
    ∧ (∀ n, ¬ In n exported_names → b !! n = None).
Proof.
  intros Hns. pose proof (exec_body_all tree ns Hns) as Hall.
  apply exec_body_shape in Hns
    as (e1 & v1 & e2 & v2 & e3 & v3 & _ & _ & _ & _ & _ & _ & ->).
  unfold import_star. rewrite Hall.
  match goal with |- context [star_bind _ ?m _] => set (ns := m) in * end.
  assert (Hbound : Forall (λ n, is_Some (ns !! n)) exported_names)
    by (repeat constructor; by eexists).
  destruct (star_bind_ok exported_names ns ∅ Hbound) as (b & Hb & Hl).
  exists b. split; [done|]. split.
  - intros n Hn. destruct (Hl n) as [Hin _]. rewrite (Hin Hn).
    split; [done|]. rewrite Forall_forall in Hbound.
    by apply Hbound, list_elem_of_In.
  - intros n Hn. destruct (Hl n) as [_ Hout]. by rewrite (Hout Hn).
Qed.

Lemma import_star_exports_witness :
  ∃ b, import_star index_namespace = (b, None)
    ∧ b !! "Medipix256x256Detector"
      = Some (VClass (qualify "medipix_256x256") "Medipix256x256Detector")
    ∧ b !! "medipix_256x256" = None.
Proof.
  destruct (import_star_exports sample_tree index_namespace eq_refl)
    as (b & Hb & Hin & Hout).
  exists b. split; [exact Hb|]. split.
  - destruct (Hin "Medipix256x256Detector") as [-> _];
      [simpl; tauto | reflexivity].
  - apply Hout. simpl. intuition discriminate.
Defined.



(** X5: after a finished import, under any source tree, the names bound
    in the module are exactly the sixteen of [bound_names]; each submodule
    is an attribute of the package, each imported name holds what the
    submodule has under that name, and [__doc__] is the docstring. *)
Theorem index_attributes tree ns :
  exec_body tree body fresh_module = (ns, None) →
  (∀ n, is_Some (ns !! n) ↔ In n bound_names)
  ∧ (∀ submodule name exported,
       In (submodule, name) (imports_of body) →
       tree !! qualify submodule = Some exported →
       ns !! submodule = Some (VModule (qualify submodule))
       ∧ ns !! name = exported !! name)
  ∧ ns !! "__doc__" = Some (VStr "Detectors defined fro pyFAI integration")
  ∧ ns !! "__name__" = Some (VStr "pyxem.detectors").
Proof.
  intros Hns. apply exec_body_shape in Hns
    as (e1 & v1 & e2 & v2 & e3 & v3 & H1 & H1' & H2 & H2' & H3 & H3' & ->).
  split; [|split; [|split]].
  - intros n. split.
    + unfold fresh_module. rewrite !lookup_insert.
      repeat (case_decide; [subst; simpl; tauto|]).
      rewrite lookup_empty. by intros [? ?].
    + simpl. intros H.
      repeat (destruct H as [<-|H]; [by eexists|]). destruct H.
  - simpl. intros submodule name exported Hin Ht.
    repeat (destruct Hin as [[= <- <-]|Hin];
            [split; [reflexivity|]; rewrite ?H1, ?H2, ?H3 in Ht;
             injection Ht as <-; rewrite ?H1', ?H2', ?H3'; reflexivity|]).
    destruct Hin.
  - reflexivity.
  - reflexivity.
Qed.

Lemma index_attributes_witness :
  index_namespace !! "medipix_515x515"
  = Some (VModule "pyxem.detectors.medipix_515x515")
  ∧ index_namespace !! "generic_flat" = None.
Proof.
  destruct (index_attributes sample_tree index_namespace eq_refl)
    as (Hdom & Himp & _ & _).
  split.
  - eapply Himp; [|reflexivity]. simpl. tauto.
  - apply eq_None_not_Some. rewrite Hdom. simpl. intuition discriminate.
Defined.



(** X7: a reload of the index, whether it finishes or raises, leaves the
    module in [sys.modules] and unbinds none of the names it had. *)
Theorem reload_keeps_bound tree ns :
  ∃ ns', (reload tree (Some ns)).2 = Some ns'
    ∧ ∀ k, is_Some (ns !! k) → is_Some (ns' !! k).
Proof.
  unfold reload.
  pose proof (rerun_body_keeps tree body (with_builtins (init_module_attrs ns)))
    as Hkeep.
  destruct (rerun_body tree body (with_builtins (init_module_attrs ns)))
    as [ns' [e|]]; simpl in *; exists ns'; (split; [done|]);
    intros k Hk; by apply Hkeep, with_builtins_keeps, init_module_attrs_keeps.
Qed.

End IndexFacts.

(** * The manifest under any environment *)

Module ManifestFacts.
Import Py Setup SetupFacts.

Local Abbreviation globals_after bound :=
  (<["extra_feature_requirements" := VDict extra_feature_requirements]>
     (bind_all bound
        (<["find_packages" := VFindPackages]>
           (<["setup" := VSetup]> main_globals)))).

(** The statements of the script up to the call of [setup]. *)
Ltac run_prefix Hs Htext Hbound :=
  let Hexec := fresh "Hexec" in
  let Hopen := fresh "Hopen" in
  destruct lookup_before_exec as (Hexec & Hopen & _);
  cbv zeta in Hexec, Hopen;
  unfold run_manifest, import_setuptools; rewrite Hs;
  cbn [mbind result_bind bind]; rewrite Hexec, Hopen;
  cbn [mbind result_bind bind]; unfold call_open; rewrite Htext;
  cbn [mbind result_bind bind call_exec]; rewrite Hbound;
  cbn [mbind result_bind bind]; cbv zeta.

Lemma bind_all_lookup bound : ∀ g n,
  bind_all bound g !! n
  = match bound_value n bound with
    | Some v => Some (VStr v)
    | None => g !! n
    end.
Proof.
  induction bound as [|[k v] bound IH]; intros g n; [done|].
  simpl. fold (bind_all bound (<[k := VStr v]> g)). rewrite IH.
  destruct (bound_value n bound) as [v'|]; [done|].
  destruct (String.eqb_spec k n) as [->|Hne].
  - apply lookup_insert_eq.
  - by apply lookup_insert_ne.
Qed.

Lemma bound_value_in n bound :
  is_Some (bound_value n bound) ↔ In n (map fst bound).
Proof.
  induction bound as [|[k v] bound IH]; simpl.
  - split; [by intros [? ?] | done].
  - destruct (bound_value n bound) as [v'|].
    + split; [intros _; right; apply IH; by eexists | by eexists].
    + destruct (String.eqb_spec k n) as [->|Hne].
      * split; [tauto | by eexists].
      * split; [by intros [? ?]|]. intros [?|H]; [done|].
        apply IH in H. by destruct H.
Qed.

(** A name the script or the builtins have is found after the executed
    text too: bound by the text to a string, or as it was. *)
Lemma lookup_after_exec bound n :
  n ≠ "extra_feature_requirements" →
  lookup_name (globals_after bound) n
  = match bound_value n bound with
    | Some v => Ok (VStr v)
    | None =>
        lookup_name
          (<["find_packages" := VFindPackages]>
             (<["setup" := VSetup]> main_globals)) n
    end.
Proof.
  intros Hne. unfold lookup_name.
  rewrite lookup_insert_ne, bind_all_lookup by done.
  by destruct (bound_value n bound).
Qed.

(** Every step a finished run has gone through. *)
Lemma run_manifest_steps e call :
  run_manifest e = Ok call →
  has_setuptools e = true
  ∧ ∃ text bound readme,
      files e !! "pyxem/release_info.py" = Some text
      ∧ exec_text e text = Ok bound
      ∧ files e !! "README.rst" = Some readme
      ∧ lookup_name (globals_after bound) "setup" = Ok VSetup
      ∧ lookup_name (globals_after bound) "open" = Ok VOpen
      ∧ lookup_name (globals_after bound) "find_packages" = Ok VFindPackages
      ∧ lookup_name (globals_after bound) "name" = Ok (name call)
      ∧ lookup_name (globals_after bound) "version" = Ok (version call)
      ∧ lookup_name (globals_after bound) "author" = Ok (author call)
      ∧ lookup_name (globals_after bound) "email" = Ok (author_email call)
      ∧ lookup_name (globals_after bound) "license" = Ok (license call)
      ∧ long_description call = readme
      ∧ packages call = found_packages e
      ∧ extras_require call = VDict extra_feature_requirements.
Proof.
  unfold run_manifest, import_setuptools. intros H.
  destruct (has_setuptools e); [|discriminate]. split; [done|].
  apply mbind_ok in H as (g0 & [= <-] & H).
  apply mbind_ok in H as (exec_f & [= <-] & H).
  apply mbind_ok in H as (open_f & [= <-] & H).
  apply mbind_ok in H as (text & [_ Htext]%call_open_ok & H).
  apply mbind_ok in H as (bound & [_ Hbound]%call_exec_ok & H).
  cbv zeta in H.
  apply mbind_ok in H as (setup_f & Hsetup & H).
  apply mbind_ok in H as (a_name & Hname & H).
  apply mbind_ok in H as (a_version & Hversion & H).
  apply mbind_ok in H as (a_author & Hauthor & H).
  apply mbind_ok in H as (a_email & Hemail & H).
  apply mbind_ok in H as (a_license & Hlicense & H).
  apply mbind_ok in H as (open_f' & Hopen & H).
  apply mbind_ok in H as (readme & [-> Hreadme]%call_open_ok & H).
  apply mbind_ok in H as (find_f & Hfind & H).
  apply mbind_ok in H as (found & Hfound & H).
  apply mbind_ok in H as (extras & Hextras & H).
  apply call_setup_ok in H as [-> ->].
  destruct find_f; try discriminate. injection Hfound as <-.
  rewrite lookup_extra in Hextras. injection Hextras as <-.
  exists text, bound, readme. cbn.
  repeat (split; [done|]). done.
Qed.

Lemma unshadowed bound n v :
  n ≠ "extra_feature_requirements" →
  (∀ s, v ≠ VStr s) →
  lookup_name (globals_after bound) n = Ok v → ¬ In n (map fst bound).
Proof.
  intros Hne Hv Hl Hin. rewrite lookup_after_exec in Hl by done.
  apply bound_value_in in Hin as [s Hs]. rewrite Hs in Hl.
  injection Hl as <-. by eapply Hv.
Qed.

(** A name only the executed text can bind is found exactly when the text
    binds it, with the value it assigns last. *)
Lemma field_from_binding bound n v :
  In n [ "name"; "version"; "author"; "email" ] →
  lookup_name (globals_after bound) n = Ok v →
  ∃ s, bound_value n bound = Some s ∧ v = VStr s.
Proof.
  intros Hn Hl.
  assert (Hne : n ≠ "extra_feature_requirements")
    by (intros ->; simpl in Hn; intuition discriminate).
  destruct (bound_value n bound) as [s|] eqn:Hs.
  - rewrite lookup_after_exec, Hs in Hl by done. injection Hl as <-. eauto.
  - exfalso. assert (Hout : ¬ In n (map fst bound)).
    { intros Hin. apply bound_value_in in Hin as [? Hin]. congruence. }
    rewrite (lookup_name_unbound bound n Hn Hout) in Hl. discriminate.
Qed.

(** Whatever the executed text binds, the callee [setup] is found. *)
Lemma lookup_setup_found bound :
  ∃ v, lookup_name (globals_after bound) "setup" = Ok v.
Proof.
  rewrite lookup_after_exec by done.
  destruct (bound_value "setup" bound); by eexists.
Qed.

Lemma lookup_license_found bound :
  lookup_name (globals_after bound) "license"
  = Ok match bound_value "license" bound with
       | Some v => VStr v
       | None => VBuiltin "license"
       end.
Proof.
  rewrite lookup_after_exec by done. by destruct (bound_value "license" bound).
Qed.

Lemma lookup_bound_found bound n :
  n ≠ "extra_feature_requirements" → In n (map fst bound) →
  ∃ s, lookup_name (globals_after bound) n = Ok (VStr s).
Proof.
  intros Hne Hin. apply bound_value_in in Hin as [s Hs]. exists s.
  by rewrite lookup_after_exec, Hs.
Qed.

(** X8: the script reaches the call of [setup] exactly when [setuptools]
    can be imported, both files are present, the release text runs without
    raising, binds [name], [version], [author] and [email], and rebinds
    none of [open], [setup], [find_packages]; whether it binds [license]
    plays no part. *)
Theorem run_manifest_ok_iff e :
  is_ok (run_manifest e) = true ↔
  has_setuptools e = true
  ∧ ∃ text bound,
      files e !! "pyxem/release_info.py" = Some text
      ∧ exec_text e text = Ok bound
      ∧ is_Some (files e !! "README.rst")
      ∧ (∀ n, In n [ "name"; "version"; "author"; "email" ] →
              In n (map fst bound))
      ∧ (∀ n, In n [ "open"; "setup"; "find_packages" ] →
              ¬ In n (map fst bound)).
Proof.
  split.
  - destruct (run_manifest e) as [call|ex] eqn:Hrun; [intros _ | done].
    apply run_manifest_steps in Hrun as (Hs & text & bound & readme & Htext
      & Hbound & Hreadme & Hsetup & Hopen & Hfind & Hname & Hversion
      & Hauthor & Hemail & _).
    split; [done|]. exists text, bound.
    split; [done|]. split; [done|]. split; [by eexists|]. split.
    + intros n Hn.
      assert (∃ v, lookup_name (globals_after bound) n = Ok v) as [v Hv].
      { simpl in Hn. repeat (destruct Hn as [<-|Hn]; [by eexists|]).
        destruct Hn. }
      destruct (field_from_binding bound n v Hn Hv) as (s & Hs' & _).
      apply bound_value_in. by eexists.
    + simpl. intros n Hn.
      repeat (destruct Hn as [<-|Hn];
              [eapply unshadowed; [| |eassumption]; done|]).
      destruct Hn.
  - intros (Hs & text & bound & Htext & Hbound & [readme Hreadme]
            & Hnames & Hfree).
    destruct (run_manifest_calls e text bound readme
                Hs Htext Hbound Hreadme Hnames Hfree) as (call & -> & _).
    reflexivity.
Qed.

(** X9: with the release file in place and run, the first of [name],
    [version], [author], [email], in that order, that the release text
    leaves unbound raises [NameError] for that name; this comes before
    [README.rst] is opened, so it is raised whether or not that file
    exists. *)
Theorem run_manifest_name_error e text bound pre n post :
  has_setuptools e = true →
  files e !! "pyxem/release_info.py" = Some text →
  exec_text e text = Ok bound →
  [ "name"; "version"; "author"; "email" ] = pre ++ n :: post →
  Forall (λ m, In m (map fst bound)) pre →
  ¬ In n (map fst bound) →
  run_manifest e = Err (NameError n).
Proof.
  intros Hs Htext Hbound Hsplit Hpre Hn.
  assert (Hin : In n [ "name"; "version"; "author"; "email" ])
    by (rewrite Hsplit; apply in_or_app; simpl; tauto).
  pose proof (lookup_name_unbound bound n Hin Hn) as Herr.
  run_prefix Hs Htext Hbound.
  destruct (lookup_setup_found bound) as [f ->].
  cbn [mbind result_bind bind].
  destruct pre as [|p1 [|p2 [|p3 [|p4 pre]]]]; simplify_eq/=;
    repeat match goal with
           | H : Forall _ (_ :: _) |- _ => apply Forall_cons in H as [? H]
           end;
    repeat match goal with
           | H : In ?m (map fst bound) |- _ =>
               let s := fresh "s" in
               destruct (lookup_bound_found bound m) as [s ->];
               [done | exact H |]; clear H;
               cbn [mbind result_bind bind]
           end;
    try (rewrite Herr; reflexivity).
  destruct pre; discriminate.
Qed.

Lemma run_manifest_name_error_witness :
  run_manifest
    (Build_env {[ "pyxem/release_info.py" := "name = 'pyxem'" ]}
       (λ _, Ok [ ("name", "pyxem") ]) [] true)
  = Err (NameError "version").
Proof.
  apply (run_manifest_name_error _ "name = 'pyxem'" [ ("name", "pyxem") ]
           [ "name" ] "version" [ "author"; "email" ]).
  - reflexivity.
  - reflexivity.
  - reflexivity.
  - reflexivity.
  - repeat constructor.
  - simpl. intuition discriminate.
Defined.

(** X10: with the release file in place, run, binding the four names and
    leaving [open] alone, a missing [README.rst] raises [FileNotFoundError]
    for that path: the second read of the script fails after the first has
    been done and the metadata names have been read. *)
Theorem run_manifest_readme_missing e text bound :
  has_setuptools e = true →
  files e !! "pyxem/release_info.py" = Some text →
  exec_text e text = Ok bound →
  (∀ n, In n [ "name"; "version"; "author"; "email" ] →
        In n (map fst bound)) →
  ¬ In "open" (map fst bound) →
  files e !! "README.rst" = None →
  run_manifest e = Err (FileNotFoundError "README.rst").
Proof.
  intros Hs Htext Hbound Hnames Hopen' Hreadme.
  run_prefix Hs Htext Hbound.
  destruct (lookup_setup_found bound) as [f ->].
  destruct (lookup_bound_found bound "name") as [s1 ->];
    [done | apply Hnames; simpl; tauto |].
  destruct (lookup_bound_found bound "version") as [s2 ->];
    [done | apply Hnames; simpl; tauto |].
  destruct (lookup_bound_found bound "author") as [s3 ->];
    [done | apply Hnames; simpl; tauto |].
  destruct (lookup_bound_found bound "email") as [s4 ->];
    [done | apply Hnames; simpl; tauto |].
  rewrite lookup_license_found.
  rewrite (lookup_after_exec_unbound bound "open") by done.
  rewrite Hopen. cbn [mbind result_bind bind]. by rewrite Hreadme.
Qed.

Lemma run_manifest_readme_missing_witness :
  run_manifest
    (Build_env {[ "pyxem/release_info.py" := release_text ]}
       (exec_text sample_env) [] true)
  = Err (FileNotFoundError "README.rst").
Proof.
  apply (run_manifest_readme_missing _ release_text
           [ ("name", "pyxem"); ("version", "0"); ("author", "a");
             ("email", "e"); ("license", "GPLv3") ]).
  - reflexivity.
  - reflexivity.
  - reflexivity.
  - simpl. intuition.
  - simpl. intuition discriminate.
  - reflexivity.
Defined.

(** X11: the extras handed to [setup] are the dictionary the script itself
    assigns after the release text has run, with the four keys [doc],
    [tests], [dev] and [gpu]: a release text that binds
    [extra_feature_requirements] does not change them. *)
Theorem extras_require_literal e call :
  run_manifest e = Ok call →
  extras_require call = VDict extra_feature_requirements
  ∧ ∀ k, is_Some (extra_feature_requirements !! k)
         ↔ In k [ "doc"; "tests"; "dev"; "gpu" ].
Proof.
  intros Hrun. apply run_manifest_steps in Hrun as (_ & text & bound & readme
    & _ & _ & _ & _ & _ & _ & _ & _ & _ & _ & _ & _ & _ & Hextras).
  split; [done|]. intros k. unfold extra_feature_requirements. split.
  - rewrite !lookup_insert.
    repeat (case_decide; [subst; simpl; tauto|]).
    rewrite lookup_empty. by intros [? ?].
  - simpl. intros H. repeat (destruct H as [<-|H]; [by eexists|]). destruct H.
Qed.

Lemma extras_require_literal_witness :
  ∃ call, run_manifest extras_env = Ok call
    ∧ extras_require call = VDict extra_feature_requirements.
Proof.
  eexists. split; [reflexivity|].
  apply (extras_require_literal extras_env _ eq_refl).
Defined.

(** X12: the metadata handed to [setup] comes from the release text and the
    README: [name], [version] and [author] are the strings the text assigns
    last to those names, [author_email] the one it assigns last to [email],
    [license] the one it assigns last to [license] when it assigns one and
    the built-in object otherwise, [long_description] the text of
    [README.rst], and [packages] what [find_packages()] returns. *)
Theorem metadata_from_release e call text bound readme :
  run_manifest e = Ok call →
  files e !! "pyxem/release_info.py" = Some text →
  exec_text e text = Ok bound →
  files e !! "README.rst" = Some readme →
  (∃ v, bound_value "name" bound = Some v ∧ name call = VStr v)
  ∧ (∃ v, bound_value "version" bound = Some v ∧ version call = VStr v)
  ∧ (∃ v, bound_value "author" bound = Some v ∧ author call = VStr v)
  ∧ (∃ v, bound_value "email" bound = Some v ∧ author_email call = VStr v)
  ∧ license call = match bound_value "license" bound with
                   | Some v => VStr v
                   | None => VBuiltin "license"
                   end
  ∧ long_description call = readme
  ∧ packages call = found_packages e.
Proof.
  intros Hrun Htext Hbound Hreadme.
  apply run_manifest_steps in Hrun as (_ & text' & bound' & readme' & Htext'
    & Hbound' & Hreadme' & _ & _ & _ & Hname & Hversion & Hauthor & Hemail
    & Hlicense & Hlong & Hpackages & _).
  assert (text' = text) as -> by congruence.
  assert (bound' = bound) as -> by congruence.
  assert (readme' = readme) as -> by congruence.
  rewrite lookup_license_found in Hlicense. injection Hlicense as Hlicense.
  split; [|split; [|split; [|split; [|split; [|split]]]]]; try done.
  - destruct (field_from_binding bound "name" _ ltac:(simpl; tauto) Hname)
      as (s & ? & ?). by exists s.
  - destruct (field_from_binding bound "version" _ ltac:(simpl; tauto) Hversion)
      as (s & ? & ?). by exists s.
  - destruct (field_from_binding bound "author" _ ltac:(simpl; tauto) Hauthor)
      as (s & ? & ?). by exists s.
  - destruct (field_from_binding bound "email" _ ltac:(simpl; tauto) Hemail)
      as (s & ? & ?). by exists s.
Qed.

Lemma metadata_from_release_witness :
  ∃ call, run_manifest two_versions_env = Ok call
    ∧ version call = VStr "0.2"
    ∧ license call = VBuiltin "license".
Proof.
  eexists. split; [reflexivity|].
  destruct (metadata_from_release two_versions_env _ release_text
              [ ("version", "0.1"); ("name", "pyxem"); ("author", "a");
                ("email", "e"); ("version", "0.2") ] "pyXem"
              eq_refl eq_refl eq_refl eq_refl)
    as (_ & (v & Hv & Hversion) & _ & _ & Hlicense & _).
  split; [|exact Hlicense].
  rewrite Hversion. injection Hv as <-. reflexivity.
Defined.

End ManifestFacts.
